(** * accounts-tequila: the server side of the Tequila login handshake

    A shallow embedding of [accounts-tequila-server.js]: the connect
    middleware installed by [start] (bypass and control layers, and
    [tequilaRedirectHTTP]), the login handler registered with
    [Accounts.registerLoginHandler], and [getIdFromResults].

    JavaScript values are modelled by [JS.value], exceptions and the calls
    made to external collaborators by the monad [M] (a log of events and a
    completion).  The collaborators themselves (connect's route matching,
    the query-string parser, the two Tequila RPCs, the user store, and the
    scope that surrounds the module) are the fields of a record [Host].
    The set-up of the fake Tequila server in [start] is left out. *)

From Stdlib Require Import String List Bool ZArith Lia.
Import ListNotations.
Open Scope string_scope.
Open Scope list_scope.

(** ** JavaScript values *)

Module JS.

(** [Iter feed props] is an object whose [forEach] property is a function
    that calls its callback once per element of [feed], in order and
    synchronously, with the two arguments of the pair; [props] are its
    other properties.  [Obj props] is any other object. *)
#[warnings="-register-all"]
Inductive value : Type :=
| Undefined
| Null
| Bool (b : bool)
| Num (z : Z)
| Str (s : string)
| Obj (props : list (string * value))
| Iter (feed : list (value * value)) (props : list (string * value)).

(** ToBoolean. *)
Definition truthy (v : value) : bool :=
  match v with
  | Undefined | Null => false
  | Bool b => b
  | Num z => negb (Z.eqb z 0)
  | Str s => negb (String.eqb s "")
  | Obj _ | Iter _ _ => true
  end.

(** [a && b]. *)
Definition and_ (a b : value) : value := if truthy a then b else a.

Fixpoint assoc (k : string) (ps : list (string * value)) : value :=
  match ps with
  | [] => Undefined
  | (k', v) :: rest => if String.eqb k k' then v else assoc k rest
  end.

(** [o.k] for an [o] that is neither [undefined] nor [null]; a property
    that is missing, and any property of a primitive, reads [undefined]. *)
Definition get (o : value) (k : string) : value :=
  match o with
  | Obj ps | Iter _ ps => assoc k ps
  | _ => Undefined
  end.

Fixpoint set_prop (k : string) (v : value) (ps : list (string * value))
  : list (string * value) :=
  match ps with
  | [] => [(k, v)]
  | (k', v') :: rest =>
      if String.eqb k k' then (k, v) :: rest else (k', v') :: set_prop k v rest
  end.

(** [_.extend(dst, src)] on property lists: every property of [src] is
    assigned on [dst], in order. *)
Definition extend (dst src : list (string * value)) : list (string * value) :=
  fold_left (fun acc kv => set_prop (fst kv) (snd kv) acc) src dst.

Definition ReferenceError (ident : string) : value :=
  Obj [("name", Str "ReferenceError");
       ("message", Str (ident ++ " is not defined"))].

Definition TypeError (msg : string) : value :=
  Obj [("name", Str "TypeError"); ("message", Str msg)].

End JS.

Import JS.

(** [new Meteor.Error(code)]. *)
Definition MeteorError (code : string) : list (string * value) :=
  [("error", Str code);
   ("message", Str ("[" ++ code ++ "]"));
   ("errorType", Str "Meteor.Error")].

(** ** Requests, events and the effect monad *)

(** The request object as the middleware sees it.  [url] is what connect
    matches routes against (path and query string); [query] is filled by
    connect-query; [tequila] is the property the bypass layers write. *)
Record Request : Type := mkRequest {
  url : string;
  originalUrl : value;
  query : value;
  tequila : value
}.

Definition set_url (u : string) (r : Request) : Request :=
  mkRequest u (originalUrl r) (query r) (tequila r).
Definition set_originalUrl (v : value) (r : Request) : Request :=
  mkRequest (url r) v (query r) (tequila r).
Definition set_query (v : value) (r : Request) : Request :=
  mkRequest (url r) (originalUrl r) v (tequila r).
Definition set_tequila (v : value) (r : Request) : Request :=
  mkRequest (url r) (originalUrl r) (query r) v.

(** Calls that leave the module. [Visited] records one invocation of the
    callback handed to a cursor's [forEach]. *)
Inductive event : Type :=
| CreateRequest (req : Request)
| RequestAuth (results : value)
| FetchAttributes (key : value)
| Visited (error item : value).

Inductive completion (A : Type) : Type :=
| Normal (a : A)
| Throw (e : value).
Arguments Normal {A} a.
Arguments Throw {A} e.

(** A computation: the events it emitted, oldest first, and how it
    completed. *)
Definition M (A : Type) : Type := (list event * completion A)%type.

Definition ret {A} (a : A) : M A := ([], Normal a).
Definition throw {A} (e : value) : M A := ([], Throw e).
Definition emit (ev : event) : M unit := ([ev], Normal tt).
Definition lift {A} (c : completion A) : M A := ([], c).

Definition bind {A B} (m : M A) (f : A -> M B) : M B :=
  match m with
  | (evs, Normal a) => let (evs', c) := f a in (evs ++ evs', c)
  | (evs, Throw e) => (evs, Throw e)
  end.

(** [try { m } catch (e) { h e }]. *)
Definition try_catch {A} (m : M A) (h : value -> M A) : M A :=
  match m with
  | (evs, Throw e) => let (evs', c) := h e in (evs ++ evs', c)
  | (evs, Normal a) => (evs, Normal a)
  end.

Notation "x <- m ;; k" := (bind m (fun x => k))
  (at level 61, m at next level, right associativity).
Notation "m ;;; k" := (bind m (fun _ => k))
  (at level 61, right associativity).

Definition trace {A} (m : M A) : list event := fst m.
Definition result {A} (m : M A) : completion A := snd m.

(** ** Configuration *)

(** An identity-resolution function.  A value it returns, or the value a
    promise it returns is fulfilled with, is [Normal]; an exception it
    throws, or the reason its promise is rejected with, is [Throw]. *)
Definition resolver : Type := value -> completion value.

(** The object built by [_.extend({defaults}, opts)] in [start]. *)
Record Options : Type := mkOptions {
  client : value;
  getUserId : resolver;
  bypass : list string;
  control : list string
}.

(** The caller's [opts]: a property that is absent is [None]. *)
Record Opts : Type := mkOpts {
  opts_client : option value;
  opts_getUserId : option resolver;
  opts_bypass : option (list string);
  opts_control : option (list string)
}.

(** Argument of a login call. *)
Record LoginOptions : Type := mkLoginOptions {
  tequilaKey : value
}.

(** What the login handler returns: [undefined], [{error: e}] or
    [{userId: id}]. *)
Inductive LoginResult : Type :=
| Declined
| LoginError (e : value)
| LoggedIn (userId : value).

(** ** External collaborators *)

(** Everything the module consumes but does not define.

    - [route_match route url]: connect runs a layer mounted at [route] for
      a request whose URL is [url];
    - [strip_route route url]: the URL connect shows to that layer;
    - [qs_parse url]: the object connect-query stores in [req.query];
    - [createrequest], [fetchattributes]: the [(err, results)] pair the
      Tequila protocol object passes to the callback;
    - [findOne_username n]: [Meteor.users.findOne({username: n})];
    - [scope_results], [scope_options]: what the identifiers [results] and
      [options] denote outside the module, if anything.  The module is
      strict-mode code and binds neither at top level, so that a reference
      to one of them from a place where no enclosing function or block
      declares it is looked up here, and is a ReferenceError when the
      lookup fails. *)
Record Host : Type := mkHost {
  route_match : string -> string -> bool;
  strip_route : string -> string -> string;
  qs_parse : string -> value;
  createrequest : Request -> value * value;
  fetchattributes : value -> value * value;
  findOne_username : value -> value;
  scope_results : option value;
  scope_options : option Options
}.

Definition lookup {A} (ident : string) (binding : option A) : M A :=
  match binding with
  | Some a => ret a
  | None => throw (ReferenceError ident)
  end.

(** ** The module *)

Section Server.

Variable H : Host.

(** *** [tequilaRedirectHTTP] *)

(** What a middleware does with its continuation: [next()], [next(err)],
    or nothing (the response has been written). *)
Inductive signal : Type :=
| Next
| NextErr (err : value)
| Responded.

Definition tequilaRedirectHTTP (req : Request) : M signal :=
  if truthy (and_ (query req) (get (query req) "key")) then
    ret Next
  else
    let (err, results) := createrequest H req in
    emit (CreateRequest req) ;;;
    if truthy err then ret (NextErr err)
    else emit (RequestAuth results) ;;; ret Responded.

(** *** [getIdFromResults] *)

(** The callback handed to [loggedInUser.forEach]. *)
Definition forEach_callback (error item : value) : M value :=
  emit (Visited error item) ;;;
  if truthy error then throw error else ret item.

(** A synchronous [forEach]: the value the callback returns is dropped,
    an exception it throws ends the iteration and propagates. *)
Fixpoint forEach (feed : list (value * value))
                 (callback : value -> value -> M value) : M unit :=
  match feed with
  | [] => ret tt
  | (e, v) :: rest => callback e v ;;; forEach rest callback
  end.

(** [loggedInUser.forEach(callback)]. *)
Definition call_forEach (loggedInUser : value)
                        (callback : value -> value -> M value) : M unit :=
  match loggedInUser with
  | Iter feed _ => forEach feed callback
  | _ => throw (TypeError "loggedInUser.forEach is not a function")
  end.

(** [loggedInUser.forEach] as a condition. *)
Definition has_forEach (loggedInUser : value) : bool :=
  match loggedInUser with
  | Iter _ _ => true
  | _ => truthy (get loggedInUser "forEach")
  end.

(** The function is declared at the top level of the module, where
    [options] is not bound: the identifier is resolved in the surrounding
    scope.  The promise the function returns is settled the way the inner
    async function completes, which [M] expresses directly. *)
Definition getIdFromResults (results : value) : M value :=
  options <- lookup "options" (scope_options H) ;;
  loggedInUser <- lift (getUserId options results) ;;
  if negb (truthy loggedInUser) then
    ret Undefined
  else if has_forEach loggedInUser then
    call_forEach loggedInUser forEach_callback ;;;
    ret Undefined
  else if truthy (get loggedInUser "_id") then
    ret (get loggedInUser "_id")
  else
    ret loggedInUser.

(** *** [TequilaUnknownUserError] *)

(** [tequilaResults] is an attribute set, an object; for anything else
    [_.extend] is taken to copy nothing. *)
Definition TequilaUnknownUserError (tequilaResults : value) : value :=
  Obj (match tequilaResults with
       | Obj ps | Iter _ ps => extend (MeteorError "TEQUILA_USER_UNKNOWN") ps
       | _ => MeteorError "TEQUILA_USER_UNKNOWN"
       end).

(** *** [start] *)

Definition default_getUserId : resolver :=
  fun tequilaResponse =>
    match tequilaResponse with
    | Undefined | Null =>
        Throw (TypeError "Cannot read property 'name' of undefined")
    | _ => Normal (findOne_username H (get tequilaResponse "name"))
    end.

Definition default_bypass : list string :=
  ["/merged-stylesheets.css"; "/packages/"; "/lib/"; "/node_modules/";
   "/tap-i18n/"; "/error-stack-parser.min.js.map"; "/favicon.ico"].

Definition default_control : list string := ["/"].

Definition override {A} (default : A) (o : option A) : A :=
  match o with Some a => a | None => default end.

(** [_.extend({client: ..., getUserId: ..., bypass: ..., control: ...}, opts)] *)
Definition extend_defaults (opts : Opts) : Options :=
  {| client := override (Str "meteor-accounts-tequila") (opts_client opts);
     getUserId := override default_getUserId (opts_getUserId opts);
     bypass := override default_bypass (opts_bypass opts);
     control := override default_control (opts_control opts) |}.

Definition handler : Type := Request -> M (Request * signal).

(** A layer of the connect stack; [route = None] for a middleware
    mounted without a route, which sees every request. *)
Record layer : Type := mkLayer {
  route : option string;
  handle : handler
}.

(** [connect.use(connectQuery())] *)
Definition connectQuery : handler :=
  fun req =>
    if truthy (query req) then ret (req, Next)
    else ret (set_query (qs_parse H (url req)) req, Next).

(** The handler [start] mounts at each bypass pattern. *)
Definition bypass_handler : handler :=
  fun req => ret (set_tequila (Obj [("whitelisted", Bool true)]) req, Next).

(** The handler [start] mounts at each control pattern. *)
Definition control_handler : handler :=
  fun req =>
    if truthy (and_ (tequila req) (get (tequila req) "whitelisted")) then
      ret (req, Next)
    else
      s <- tequilaRedirectHTTP req ;; ret (req, s).

(** The login handler [start] registers.  Its parameter is named
    [options] in the source and hides the configuration of the same name.
    [const results] is declared inside the first [try] block and is in
    scope there only; the two later occurrences of [results] denote
    whatever the surrounding scope binds.  [configured] is the
    configuration [start] built, which the handler closes over through
    [protocol]; its body reads none of it. *)
Definition loginHandler (configured : Options) (options : LoginOptions)
  : M LoginResult :=
  let key := tequilaKey options in
  if negb (truthy key) then ret Declined
  else
    early <- try_catch
               (let (err, results) := fetchattributes H key in
                emit (FetchAttributes key) ;;;
                (if truthy err then throw err else ret results) ;;;
                ret None)
               (fun e => ret (Some (LoginError e))) ;;
    match early with
    | Some r => ret r
    | None =>
        try_catch
          (results <- lookup "results" (scope_results H) ;;
           userId <- getIdFromResults results ;;
           if negb (truthy userId) then
             lookup "results" (scope_results H) ;;;
             ret (LoginError (Obj (MeteorError "Tequila:user-unknown")))
           else
             ret (LoggedIn userId))
          (fun e => ret (LoginError e))
    end.

(** [connect.use(url, ...)] for a bypass and for a control pattern. *)
Definition bypass_layer (u : string) : layer := mkLayer (Some u) bypass_handler.
Definition control_layer (u : string) : layer := mkLayer (Some u) control_handler.

(** What [start] installs: the layers it adds to the connect app, in
    order, and the login handler. *)
Record App : Type := mkApp {
  stack : list layer;
  login : LoginOptions -> M LoginResult
}.

Definition start (opts : Opts) : App :=
  let options := extend_defaults opts in
  {| stack :=
       mkLayer None connectQuery
       :: map bypass_layer (bypass options)
       ++ map control_layer (control options);
     login := loginHandler options |}.

(** *** connect's dispatch *)

(** How a request leaves the connect app: handed to the next handler of
    the host ([PassedOn]), handed to its error handling ([Errored]), or
    answered ([Answered]). *)
Inductive outcome : Type :=
| PassedOn
| Errored (err : value)
| Answered.

Definition layer_matches (l : layer) (req : Request) : bool :=
  match route l with
  | None => true
  | Some r => route_match H r (url req)
  end.

Definition layer_url (l : layer) (req : Request) : string :=
  match route l with
  | None => url req
  | Some r => strip_route H r (url req)
  end.

(** connect's [next]: layers are tried in order; one whose route does not
    match is skipped; a matching one runs on the request with its URL
    stripped of the route, and the URL is restored when it calls [next].
    After [next(err)] only error-handling middleware would run, and
    [start] installs none. *)
Fixpoint dispatch (layers : list layer) (req : Request)
  : M (Request * outcome) :=
  match layers with
  | [] => ret (req, PassedOn)
  | l :: rest =>
      if layer_matches l req then
        r <- handle l (set_url (layer_url l req) req) ;;
        let req' := set_url (url req) (fst r) in
        match snd r with
        | Next => dispatch rest req'
        | NextErr err => ret (req', Errored err)
        | Responded => ret (req', Answered)
        end
      else dispatch rest req
  end.

(** An inbound request: a fresh request object for the URL [u]; connect
    records the URL in [originalUrl] before it runs the stack. *)
Definition incoming (u : string) : Request :=
  mkRequest u Undefined Undefined Undefined.

Definition handle_request (app : App) (u : string) : M (Request * outcome) :=
  let req := incoming u in
  let req := set_originalUrl
               (if truthy (originalUrl req) then originalUrl req else Str (url req))
               req in
  dispatch (stack app) req.

End Server.

(** ** Vocabulary of the specification *)

Inductive Outcome : Type :=
| Whitelisted
| Controlled
| Unclassified.

(** The classification of a request as the specification words it (the
    source has no such function: the outcome is implicit in which layers
    of the stack run): bypass patterns first, then control patterns. *)
Definition spec_classify (h : Host) (u : string)
                         (bypassPatterns controlPatterns : list string)
  : Outcome :=
  if existsb (fun p => route_match h p u) bypassPatterns then Whitelisted
  else if existsb (fun p => route_match h p u) controlPatterns then Controlled
  else Unclassified.

Definition classification (h : Host) (opts : Opts) (u : string) : Outcome :=
  let options := extend_defaults h opts in
  spec_classify h u (bypass options) (control options).

(** The request for [u] carries a ticket in its [key] query parameter:
    the condition [req.query && req.query.key] of [tequilaRedirectHTTP]
    on the query connect-query parsed. *)
Definition carries_key (h : Host) (u : string) : bool :=
  truthy (and_ (qs_parse h u) (get (qs_parse h u) "key")).

(** The login call presents a ticket: [options.tequilaKey] is truthy. *)
Definition presents_ticket (options : LoginOptions) : bool :=
  truthy (tequilaKey options).

(** The tickets redeemed in a run: the arguments of its calls to
    [fetchattributes]. *)
Fixpoint redemptions (evs : list event) : list value :=
  match evs with
  | [] => []
  | FetchAttributes k :: rest => k :: redemptions rest
  | _ :: rest => redemptions rest
  end.

(** The redirects issued in a run. *)
Fixpoint redirects (evs : list event) : list value :=
  match evs with
  | [] => []
  | RequestAuth r :: rest => r :: redirects rest
  | _ :: rest => redirects rest
  end.

(** The mark a bypass layer leaves on the request. *)
Definition whitelisted_mark : value := Obj [("whitelisted", Bool true)].

(** The request for [u] once connect has recorded its URL and
    connect-query has parsed its query string. *)
Definition parsed (h : Host) (u : string) : Request :=
  mkRequest u (Str u) (qs_parse h u) Undefined.

(** The error object [e] carries the attribute set [R]: every attribute
    of [R] can be read from [e]. *)
Definition payload_includes (e R : value) : Prop :=
  forall k, get R k <> Undefined -> get e k = get R k.

(** The error kind of a [Meteor.Error]. *)
Definition error_kind (e : value) : value := get e "error".

(** ** Sample hosts *)

Module Sample.

Definition qs (u : string) : value :=
  if String.eqb u "/dashboard?key=abc123" then Obj [("key", Str "abc123")]
  else if String.eqb u "/dashboard?key=" then Obj [("key", Str "")]
  else Obj [].

Definition attributes : value := Obj [("name", Str "alice")].

Definition alice : value := Obj [("_id", Str "u1"); ("username", Str "alice")].

Definition findOne (n : value) : value :=
  match n with
  | Str s => if String.eqb s "alice" then alice else Undefined
  | _ => Undefined
  end.

(** A route loses its trailing slash when it is mounted; the layer sees
    what follows it, with a leading slash. *)
Definition strip (r u : string) : string :=
  let n := String.length r in
  let r' := if String.eqb (substring (n - 1) 1 r) "/" then substring 0 (n - 1) r
            else r in
  let rest := substring (String.length r') (String.length u) u in
  if String.prefix "/" rest then rest else "/" ++ rest.

(** Every RPC succeeds; nothing outside the module binds [results] or
    [options]. *)
Definition host : Host :=
  {| route_match := String.prefix;
     strip_route := strip;
     qs_parse := qs;
     createrequest := fun _ => (Null, Obj [("key", Str "request-1")]);
     fetchattributes := fun _ => (Null, attributes);
     findOne_username := findOne;
     scope_results := None;
     scope_options := None |}.

(** The same host with both RPCs failing. *)
Definition down : Host :=
  {| route_match := route_match host;
     strip_route := strip_route host;
     qs_parse := qs_parse host;
     createrequest := fun _ => (Str "ECONNREFUSED", Undefined);
     fetchattributes := fun _ => (Str "ECONNREFUSED", Undefined);
     findOne_username := findOne_username host;
     scope_results := None;
     scope_options := None |}.

(** A host whose surrounding scope happens to bind [results] to [r] and
    [options] to an object whose [getUserId] is [f]. *)
Definition bound (r : value) (f : resolver) : Host :=
  {| route_match := route_match host;
     strip_route := strip_route host;
     qs_parse := qs_parse host;
     createrequest := createrequest host;
     fetchattributes := fetchattributes host;
     findOne_username := findOne_username host;
     scope_results := Some r;
     scope_options := Some (mkOptions Undefined f [] []) |}.

Definition with_resolver (f : resolver) : Opts :=
  mkOpts None (Some f) None None.

Definition defaults : Opts := mkOpts None None None None.

Definition scenario : Opts :=
  mkOpts None None (Some ["/assets/"]) (Some ["/"]).

Definition narrow : Opts :=
  mkOpts None None (Some ["/assets/"]) (Some ["/dashboard"]).

Definition ticket : LoginOptions := mkLoginOptions (Str "abc123").

Definition record_resolver : resolver := fun _ => Normal alice.
Definition empty_resolver : resolver := fun _ => Normal Undefined.
Definition cursor_resolver : resolver :=
  fun _ => Normal (Iter [(Null, Str "u1"); (Null, Str "u2")] []).

End Sample.

(** The first control pattern that matches [u]: the layer that handles a
    controlled request. *)
Definition first_control (h : Host) (opts : Opts) (u : string) : option string :=
  find (fun p => route_match h p u) (control (extend_defaults h opts)).

(** The host [h] with another Tequila server behind [fetchattributes]. *)
Definition with_fetchattributes (f : value -> value * value) (h : Host) : Host :=
  {| route_match := route_match h;
     strip_route := strip_route h;
     qs_parse := qs_parse h;
     createrequest := createrequest h;
     fetchattributes := f;
     findOne_username := findOne_username h;
     scope_results := scope_results h;
     scope_options := scope_options h |}.

(** ** The helpers of the module that nothing calls *)

(** *** [getIpOfInterface] *)

(** The predicate handed to [_.find]: [addressStruct.family === "IPv4"].
    Reading a property of [undefined] or [null] is a TypeError. *)
Definition is_IPv4 (addressStruct : value) : M bool :=
  match addressStruct with
  | Undefined | Null =>
      throw (TypeError "Cannot read property 'family' of undefined")
  | _ =>
      ret match get addressStruct "family" with
          | Str s => String.eqb s "IPv4"
          | _ => false
          end
  end.

(** [_.find(list, predicate)]: the first element the predicate accepts,
    [undefined] when there is none; the elements after it are not
    examined. *)
Fixpoint find_ (l : list value) (predicate : value -> M bool) : M value :=
  match l with
  | [] => ret Undefined
  | x :: rest =>
      found <- predicate x ;;
      if (found : bool) then ret x else find_ rest predicate
  end.

(** [os.networkInterfaces()[iface]]: the array of address structures of
    the interface, when there is one of that name. *)
Fixpoint interface_named (iface : string)
                         (networkInterfaces : list (string * list value))
  : option (list value) :=
  match networkInterfaces with
  | [] => None
  | (name, addresses) :: rest =>
      if String.eqb iface name then Some addresses
      else interface_named iface rest
  end.

(** The module does not import [os]: the identifier denotes what the
    surrounding scope binds, here [os], given by what
    [os.networkInterfaces()] returns. *)
Definition getIpOfInterface (os : option (list (string * list value)))
                            (iface : string) : M value :=
  networkInterfaces <- lookup "os" os ;;
  let ifaceDef := interface_named iface networkInterfaces in
  addressStruct <- find_ (match ifaceDef with Some l => l | None => [] end)
                         is_IPv4 ;;
  if truthy addressStruct then ret (get addressStruct "address")
  else ret Undefined.

(** An address structure the predicate of [getIpOfInterface] rejects
    without an exception: an object whose [family] is not ["IPv4"]. *)
Definition other_family (addressStruct : value) : bool :=
  match addressStruct with
  | Undefined | Null => false
  | _ => match get addressStruct "family" with
         | Str s => negb (String.eqb s "IPv4")
         | _ => true
         end
  end.

(** *** [setupFakeLocalServer] *)

(** The fields of the protocol object the function assigns. *)
Record Protocol : Type := mkProtocol {
  tequila_host : value;
  tequila_port : value;
  agent : value
}.

(** What the function reaches outside the module:
    - [fakes]: the value of [import("passport-tequila/test/fakes.js")];
    - [new_Agent]: how [new https.Agent({ca: fakes.getCACert()})]
      completes;
    - [own_server]: the statements of the branch [configForFake === true],
      which start a fake server, given [FakeTequilaServer] and the
      protocol object. *)
Record FakeServerEnv : Type := mkFakeServerEnv {
  fakes : value;
  new_Agent : completion value;
  own_server : value -> Protocol -> Protocol * completion unit
}.

(** [k in o]: a TypeError unless [o] is an object. *)
Definition has_property (k : string) (o : value) : completion bool :=
  match o with
  | Obj ps => Normal (existsb (fun kv => String.eqb k (fst kv)) ps)
  | Iter _ ps =>
      Normal (String.eqb k "forEach"
              || existsb (fun kv => String.eqb k (fst kv)) ps)
  | _ => Throw (TypeError ("Cannot use 'in' operator to search for '"
                           ++ k ++ "'"))
  end.

(** [o.k] where [o] may be [undefined] or [null]. *)
Definition member (o : value) (k : string) : completion value :=
  match o with
  | Undefined | Null =>
      Throw (TypeError ("Cannot read property '" ++ k ++ "' of undefined"))
  | _ => Normal (get o k)
  end.

(** [new Error(msg)]. *)
Definition Error_ (msg : string) : value :=
  Obj [("name", Str "Error"); ("message", Str msg)].

(** The protocol object after the call, and how the call completed: an
    assignment made before an exception stays.  The message of the last
    error ends with the string form of [configForFake], which for an
    object is [[object Object]]. *)
Definition setupFakeLocalServer (env : FakeServerEnv) (configForFake : value)
                                (protocol : Protocol)
  : Protocol * completion unit :=
  match member (fakes env) "TequilaServer" with
  | Throw e => (protocol, Throw e)
  | Normal FakeTequilaServer =>
      match has_property "port" configForFake with
      | Throw e => (protocol, Throw e)
      | Normal true =>
          let port := get configForFake "port" in
          let protocol := mkProtocol (Str "localhost") (tequila_port protocol)
                                     (agent protocol) in
          let protocol := mkProtocol (tequila_host protocol) port
                                     (agent protocol) in
          match new_Agent env with
          | Throw e => (protocol, Throw e)
          | Normal a =>
              (mkProtocol (tequila_host protocol) (tequila_port protocol) a,
               Normal tt)
          end
      | Normal false =>
          match configForFake with
          | Bool true => own_server env FakeTequilaServer protocol
          | _ =>
              (protocol,
               Throw (Error_ ("setupFakeLocalServer: unable to determine what to do for config "
                              ++ "[object Object]")))
          end
      end
  end.

(** *** Data for examples *)

Module Fixture.

Definition interfaces : list (string * list value) :=
  [("lo", [Obj [("address", Str "127.0.0.1"); ("family", Str "IPv4")]]);
   ("eth0", [Obj [("address", Str "fe80::1"); ("family", Str "IPv6")];
             Obj [("address", Str "10.0.0.5"); ("family", Str "IPv4")];
             Obj [("address", Str "10.0.0.6"); ("family", Str "IPv4")]]);
   ("tun0", [Obj [("address", Str "fe80::2"); ("family", Str "IPv6")]])].

Definition protocol : Protocol :=
  mkProtocol (Str "tequila.epfl.ch") Undefined Undefined.

(** An environment in which the agent cannot be built. *)
Definition env : FakeServerEnv :=
  mkFakeServerEnv (Obj [])
    (Throw (TypeError "fakes.getCACert is not a function"))
    (fun _ p => (p, Normal tt)).

(** An environment in which the agent can be built. *)
Definition env_with_agent : FakeServerEnv :=
  mkFakeServerEnv (Obj [("TequilaServer", Obj [])])
    (Normal (Obj [("ca", Str "cert")]))
    (fun _ p => (p, Normal tt)).

(** A host that binds [results] outside the module, but not [options]. *)
Definition results_only (r : value) : Host :=
  {| route_match := route_match Sample.host;
     strip_route := strip_route Sample.host;
     qs_parse := qs_parse Sample.host;
     createrequest := createrequest Sample.host;
     fetchattributes := fetchattributes Sample.host;
     findOne_username := findOne_username Sample.host;
     scope_results := Some r;
     scope_options := None |}.

Definition bare_id_resolver : resolver := fun _ => Normal (Str "u7").

Definition late_error_resolver : resolver :=
  fun _ => Normal (Iter [(Null, Str "u1"); (Str "lost", Str "u2");
                         (Null, Str "u3")] []).

End Fixture.


(** ** Basic facts *)

Lemma bind_ret {A B} (a : A) (f : A -> M B) : bind (ret a) f = f a.
Proof. unfold bind, ret. destruct (f a). reflexivity. Qed.

Lemma trace_bind {A B} (m : M A) (f : A -> M B) :
  trace (bind m f) =
  match result m with
  | Normal a => trace m ++ trace (f a)
  | Throw _ => trace m
  end.
Proof.
  destruct m as [evs [a|e]]; simpl; [|reflexivity].
  destruct (f a); reflexivity.
Qed.

Lemma redemptions_app (xs ys : list event) :
  redemptions (xs ++ ys) = redemptions xs ++ redemptions ys.
Proof.
  induction xs as [|[req|r|k|e v] xs IH]; simpl; rewrite ?IH; reflexivity.
Qed.

Lemma set_url_restore (x : string) (r : Request) :
  set_url (url r) (set_url x r) = r.
Proof. destruct r; reflexivity. Qed.

Lemma existsb_find {A} (p : A -> bool) (l : list A) :
  existsb p l = true -> exists a, find p l = Some a.
Proof.
  induction l as [|a l IH]; simpl; [discriminate|].
  destruct (p a); [eauto | exact IH].
Qed.

(** ** The connect stack *)

Section Stack.

Variable h : Host.


(** Running the bypass layers marks the request when one of them matches
    and leaves it alone otherwise. *)
Lemma dispatch_bypass (bs : list string) (rest : list layer) (req : Request) :
  dispatch h (map bypass_layer bs ++ rest) req =
  dispatch h rest
    (if existsb (fun p => route_match h p (url req)) bs
     then set_tequila whitelisted_mark req else req).
Proof.
  revert req. induction bs as [|b bs IH]; intros req; [reflexivity|].
  cbn [map app dispatch existsb].
  unfold layer_matches at 1. cbn [route bypass_layer].
  destruct (route_match h b (url req)) eqn:E; cbn [orb].
  - cbn [handle bypass_layer]. unfold bypass_handler. rewrite bind_ret. cbn [fst snd].
    replace (set_url (url req) _) with (set_tequila whitelisted_mark req)
      by (destruct req; reflexivity).
    rewrite IH. cbn [url set_tequila].
    destruct (existsb _ bs); reflexivity.
  - apply IH.
Qed.

(** A control layer lets a marked request, and one that carries a ticket,
    through. *)
Lemma control_handler_pass (req : Request) :
  truthy (and_ (tequila req) (get (tequila req) "whitelisted")) = true
  \/ truthy (and_ (query req) (get (query req) "key")) = true ->
  control_handler h req = ret (req, Next).
Proof.
  intros Hpass. unfold control_handler.
  destruct (truthy (and_ (tequila req) _)); [reflexivity|].
  destruct Hpass as [Hm|Hk]; [discriminate|].
  unfold tequilaRedirectHTTP. rewrite Hk. reflexivity.
Qed.

Lemma dispatch_control_pass (cs : list string) (req : Request) :
  truthy (and_ (tequila req) (get (tequila req) "whitelisted")) = true
  \/ truthy (and_ (query req) (get (query req) "key")) = true ->
  dispatch h (map (control_layer h) cs) req = ret (req, PassedOn).
Proof.
  intros Hpass. induction cs as [|c cs IH]; [reflexivity|].
  cbn [map dispatch]. destruct (layer_matches h (control_layer h c) req); [|exact IH].
  cbn [handle control_layer].
  rewrite control_handler_pass by exact Hpass.
  rewrite bind_ret. cbn [fst snd]. rewrite set_url_restore. exact IH.
Qed.

Lemma dispatch_control_nomatch (cs : list string) (req : Request) :
  existsb (fun p => route_match h p (url req)) cs = false ->
  dispatch h (map (control_layer h) cs) req = ret (req, PassedOn).
Proof.
  induction cs as [|c cs IH]; [reflexivity|].
  cbn [existsb map dispatch]. unfold layer_matches at 1. cbn [route control_layer].
  destruct (route_match h c (url req)); [discriminate|]. exact IH.
Qed.

(** The first matching control layer answers a request that is neither
    marked nor carrying a ticket: the layers after it do not run. *)
Lemma dispatch_control_redirect (cs : list string) (req : Request) (c : string) :
  truthy (and_ (tequila req) (get (tequila req) "whitelisted")) = false ->
  truthy (and_ (query req) (get (query req) "key")) = false ->
  find (fun p => route_match h p (url req)) cs = Some c ->
  dispatch h (map (control_layer h) cs) req =
  let seen := set_url (strip_route h c (url req)) req in
  if truthy (fst (createrequest h seen))
  then ([CreateRequest seen], Normal (req, Errored (fst (createrequest h seen))))
  else ([CreateRequest seen; RequestAuth (snd (createrequest h seen))],
        Normal (req, Answered)).
Proof.
  intros Hm Hk. induction cs as [|c' cs IH]; [discriminate|].
  cbn [find map dispatch]. unfold layer_matches at 1. cbn [route control_layer].
  destruct (route_match h c' (url req)) eqn:E; [|exact IH].
  intros [= <-]. cbn [handle control_layer]. unfold layer_url. cbn [route].
  unfold control_handler, tequilaRedirectHTTP.
  cbn [tequila query set_url]. rewrite Hm, Hk.
  destruct (createrequest h _) as [err results]. cbn [fst snd].
  destruct (truthy err); cbn; destruct req; reflexivity.
Qed.

(** The stack [start] builds, seen from the request connect-query has
    parsed. *)
Lemma handle_request_parsed (opts : Opts) (u : string) :
  handle_request h (start h opts) u =
  dispatch h
    (map (control_layer h) (control (extend_defaults h opts)))
    (if existsb (fun p => route_match h p u) (bypass (extend_defaults h opts))
     then set_tequila whitelisted_mark (parsed h u) else parsed h u).
Proof.
  unfold handle_request, start, incoming. cbn [stack dispatch].
  unfold layer_matches, layer_url, connectQuery.
  cbn [route handle set_url set_originalUrl set_query query truthy url
       originalUrl tequila].
  rewrite bind_ret. cbn [fst snd set_url url originalUrl query tequila].
  exact (dispatch_bypass _ _ (parsed h u)).
Qed.

(** No layer of the stack calls [fetchattributes]. *)
Lemma dispatch_control_no_redemption (cs : list string) (req : Request) :
  redemptions (trace (dispatch h (map (control_layer h) cs) req)) = [].
Proof.
  revert req. induction cs as [|c cs IH]; intros req; [reflexivity|].
  cbn [map dispatch]. destruct (layer_matches h (control_layer h c) req); [|apply IH].
  cbn [handle control_layer]. unfold control_handler, tequilaRedirectHTTP.
  cbn [tequila query set_url].
  destruct (truthy (and_ (tequila req) _)).
  - rewrite bind_ret. cbn [fst snd]. apply IH.
  - destruct (truthy (and_ (query req) _)).
    + rewrite !bind_ret. cbn [fst snd]. apply IH.
    + destruct (createrequest h _) as [err results].
      destruct (truthy err); reflexivity.
Qed.

End Stack.

(** ** The login handler *)

Section Login.

Variable h : Host.
Variable configured : Options.

Lemma forEach_callback_eq (e v : value) :
  forEach_callback e v =
  ([Visited e v], if truthy e then Throw e else Normal v).
Proof. unfold forEach_callback. destruct (truthy e); reflexivity. Qed.

Lemma forEach_no_redemption (feed : list (value * value)) :
  redemptions (trace (forEach feed forEach_callback)) = [].
Proof.
  induction feed as [|[e v] feed IH]; [reflexivity|].
  cbn [forEach]. rewrite forEach_callback_eq, trace_bind.
  destruct (truthy e); [reflexivity|]. exact IH.
Qed.

(** A cursor none of whose elements carries an error is walked to its
    end, and nothing comes out of the walk. *)
Lemma forEach_without_error (feed : list (value * value)) :
  forallb (fun ev => negb (truthy (fst ev))) feed = true ->
  forEach feed forEach_callback =
  (map (fun ev => Visited (fst ev) (snd ev)) feed, Normal tt).
Proof.
  induction feed as [|[e v] feed IH]; [reflexivity|].
  cbn [forallb fst snd map forEach]. intros Hall.
  apply andb_prop in Hall as [He Hrest].
  apply negb_true_iff in He.
  rewrite forEach_callback_eq, He, (IH Hrest). reflexivity.
Qed.

(** The walk stops at the first element that carries an error, and
    throws it. *)
Lemma forEach_error_first (e v : value) (feed : list (value * value)) :
  truthy e = true ->
  forEach ((e, v) :: feed) forEach_callback = ([Visited e v], Throw e).
Proof.
  intros He. cbn [forEach]. rewrite forEach_callback_eq, He. reflexivity.
Qed.

Lemma getIdFromResults_no_redemption (R : value) :
  redemptions (trace (getIdFromResults h R)) = [].
Proof.
  unfold getIdFromResults.
  destruct (scope_options h) as [o|]; [|reflexivity].
  cbn [lookup]. rewrite bind_ret.
  destruct (getUserId o R) as [v|e]; [|reflexivity].
  unfold lift. change (@pair (list event) (completion value) [] (Normal v))
    with (ret v). rewrite bind_ret.
  destruct (truthy v); cbn [negb]; [|reflexivity].
  destruct (has_forEach v).
  - rewrite trace_bind.
    destruct v; try reflexivity.
    cbn [call_forEach].
    destruct (result (forEach feed forEach_callback));
      cbn [trace ret fst]; rewrite ?app_nil_r; apply forEach_no_redemption.
  - destruct (truthy (get v "_id")); reflexivity.
Qed.

Lemma login_declined (options : LoginOptions) :
  presents_ticket options = false ->
  loginHandler h configured options = ret Declined.
Proof.
  unfold presents_ticket, loginHandler. intros ->. reflexivity.
Qed.

Lemma login_fetch_failed (options : LoginOptions) :
  presents_ticket options = true ->
  truthy (fst (fetchattributes h (tequilaKey options))) = true ->
  loginHandler h configured options =
  ([FetchAttributes (tequilaKey options)],
   Normal (LoginError (fst (fetchattributes h (tequilaKey options))))).
Proof.
  unfold presents_ticket, loginHandler. intros -> Herr.
  destruct (fetchattributes h _) as [err results]. cbn [fst] in *.
  cbn. rewrite Herr. reflexivity.
Qed.

(** After a successful fetch, a surrounding scope without [results]
    makes the second [try] block fail on its first identifier. *)
Lemma login_results_unbound (options : LoginOptions) :
  presents_ticket options = true ->
  truthy (fst (fetchattributes h (tequilaKey options))) = false ->
  scope_results h = None ->
  loginHandler h configured options =
  ([FetchAttributes (tequilaKey options)],
   Normal (LoginError (ReferenceError "results"))).
Proof.
  unfold presents_ticket, loginHandler. intros -> Herr Hscope.
  destruct (fetchattributes h _) as [err results]. cbn [fst] in *.
  cbn. rewrite Herr, Hscope. reflexivity.
Qed.

(** After a successful fetch, with [results] bound to [R] outside the
    module, the answer is read off [getIdFromResults R]. *)
Lemma login_results_bound (options : LoginOptions) (R : value) :
  presents_ticket options = true ->
  truthy (fst (fetchattributes h (tequilaKey options))) = false ->
  scope_results h = Some R ->
  loginHandler h configured options =
  (FetchAttributes (tequilaKey options) :: trace (getIdFromResults h R),
   Normal match result (getIdFromResults h R) with
          | Throw e => LoginError e
          | Normal userId =>
              if truthy userId then LoggedIn userId
              else LoginError (Obj (MeteorError "Tequila:user-unknown"))
          end).
Proof.
  unfold presents_ticket, loginHandler. intros -> Herr Hscope.
  destruct (fetchattributes h _) as [err results]. cbn [fst] in *.
  cbn. rewrite Herr, Hscope. cbn.
  destruct (getIdFromResults h R) as [evs [v|e]]; cbn.
  - destruct (truthy v); cbn; rewrite ?app_nil_r; reflexivity.
  - rewrite ?app_nil_r. reflexivity.
Qed.

(** The handler always completes normally. *)
Lemma login_completes (options : LoginOptions) :
  exists r, result (loginHandler h configured options) = Normal r.
Proof.
  destruct (presents_ticket options) eqn:Hk.
  - destruct (truthy (fst (fetchattributes h (tequilaKey options)))) eqn:Herr.
    + rewrite login_fetch_failed by assumption. eexists. reflexivity.
    + destruct (scope_results h) as [R|] eqn:Hscope.
      * rewrite (login_results_bound _ R) by assumption. eexists. reflexivity.
      * rewrite login_results_unbound by assumption. eexists. reflexivity.
  - rewrite login_declined by assumption. eexists. reflexivity.
Qed.

(** A call that presents a ticket redeems it, once. *)
Lemma login_redeems_once (options : LoginOptions) :
  presents_ticket options = true ->
  redemptions (trace (loginHandler h configured options)) = [tequilaKey options].
Proof.
  intros Hk.
  destruct (truthy (fst (fetchattributes h (tequilaKey options)))) eqn:Herr.
  - rewrite login_fetch_failed by assumption. reflexivity.
  - destruct (scope_results h) as [R|] eqn:Hscope.
    + rewrite (login_results_bound _ R) by assumption.
      cbn. rewrite getIdFromResults_no_redemption. reflexivity.
    + rewrite login_results_unbound by assumption. reflexivity.
Qed.

End Login.

(** ** Properties of the request pipeline *)

Lemma classification_controlled (h : Host) (opts : Opts) (u : string) :
  classification h opts u = Controlled ->
  existsb (fun p => route_match h p u) (bypass (extend_defaults h opts)) = false
  /\ existsb (fun p => route_match h p u) (control (extend_defaults h opts)) = true.
Proof.
  unfold classification, spec_classify.
  destruct (existsb _ (bypass _)); [discriminate|].
  destruct (existsb _ (control _)); [split; reflexivity | discriminate].
Qed.

Lemma http_no_redemption (h : Host) (opts : Opts) (u : string) :
  redemptions (trace (handle_request h (start h opts) u)) = [].
Proof.
  rewrite handle_request_parsed. apply dispatch_control_no_redemption.
Qed.

(** A controlled request without a ticket stops at the first matching
    control layer, which has called [createrequest] on what it was shown. *)
Lemma controlled_without_key_run (h : Host) (opts : Opts) (u : string) :
  classification h opts u = Controlled ->
  carries_key h u = false ->
  exists seen,
    handle_request h (start h opts) u =
    if truthy (fst (createrequest h seen))
    then ([CreateRequest seen],
          Normal (parsed h u, Errored (fst (createrequest h seen))))
    else ([CreateRequest seen; RequestAuth (snd (createrequest h seen))],
          Normal (parsed h u, Answered)).
Proof.
  intros Hc Hk. apply classification_controlled in Hc as [Hb Hctl].
  destruct (existsb_find _ _ Hctl) as [c Hfind].
  exists (set_url (strip_route h c u) (parsed h u)).
  rewrite handle_request_parsed, Hb.
  exact (dispatch_control_redirect h _ (parsed h u) c eq_refl Hk Hfind).
Qed.

(** C5. A request whose path matches a bypass pattern is Whitelisted,
    whatever the control patterns are: it is handed downstream, marked,
    with no call to Tequila and no redirect.  The bypass layers sit before
    the control layers in the stack, and a control layer lets a marked
    request through. *)
Theorem C5_bypass_before_control (h : Host) (opts : Opts) (u : string) :
  existsb (fun p => route_match h p u) (bypass (extend_defaults h opts)) = true ->
  classification h opts u = Whitelisted
  /\ handle_request h (start h opts) u =
     ([], Normal (set_tequila whitelisted_mark (parsed h u), PassedOn))
  /\ stack (start h opts) =
     mkLayer None (connectQuery h)
     :: map bypass_layer (bypass (extend_defaults h opts))
     ++ map (control_layer h) (control (extend_defaults h opts)).
Proof.
  intros Hb. split; [|split].
  - unfold classification, spec_classify. rewrite Hb. reflexivity.
  - rewrite handle_request_parsed, Hb.
    apply dispatch_control_pass. left. reflexivity.
  - reflexivity.
Qed.

(** The path [/assets/app.css] matches the bypass pattern [/assets/] and
    the control pattern [/]. *)
Lemma C5_bypass_before_control_witness :
  existsb (fun p => route_match Sample.host p "/assets/app.css")
          (control (extend_defaults Sample.host Sample.scenario)) = true
  /\ handle_request Sample.host (start Sample.host Sample.scenario) "/assets/app.css"
     = ([], Normal (mkRequest "/assets/app.css" (Str "/assets/app.css") (Obj [])
                              whitelisted_mark, PassedOn)).
Proof.
  split; [reflexivity|].
  exact (proj1 (proj2 (C5_bypass_before_control
                         Sample.host Sample.scenario "/assets/app.css" eq_refl))).
Defined.

(** C6. A request classified Controlled that carries no ticket is handled
    by the first matching control layer.  It hands the request, whose
    [originalUrl] is the URL that was asked for, to [createrequest]; when
    that succeeds the redirect is issued with its results and the request
    goes no further; when it fails the error goes to [next(err)] and no
    redirect is issued.  No ticket is redeemed either way. *)
Theorem C6_controlled_without_key (h : Host) (opts : Opts) (u : string) :
  classification h opts u = Controlled ->
  carries_key h u = false ->
  exists c, first_control h opts u = Some c /\
  forall seen, seen = set_url (strip_route h c u) (parsed h u) ->
    originalUrl seen = Str u
    /\ (truthy (fst (createrequest h seen)) = false ->
        handle_request h (start h opts) u =
        ([CreateRequest seen; RequestAuth (snd (createrequest h seen))],
         Normal (parsed h u, Answered)))
    /\ (truthy (fst (createrequest h seen)) = true ->
        handle_request h (start h opts) u =
        ([CreateRequest seen],
         Normal (parsed h u, Errored (fst (createrequest h seen)))))
    /\ redemptions (trace (handle_request h (start h opts) u)) = [].
Proof.
  intros Hc Hk. apply classification_controlled in Hc as [Hb Hctl].
  destruct (existsb_find _ _ Hctl) as [c Hfind].
  exists c. split; [exact Hfind|]. intros seen ->.
  pose proof (dispatch_control_redirect h _ (parsed h u) c
                eq_refl Hk Hfind) as Hrun.
  cbn zeta in Hrun. change (url (parsed h u)) with u in Hrun.
  split; [reflexivity|]. split; [|split].
  - intros Hok. rewrite handle_request_parsed, Hb, Hrun, Hok. reflexivity.
  - intros Herr. rewrite handle_request_parsed, Hb, Hrun, Herr. reflexivity.
  - apply http_no_redemption.
Qed.

(** [/dashboard] is controlled by [/]; Tequila accepts the request. *)
Lemma C6_controlled_without_key_witness :
  classification Sample.host Sample.scenario "/dashboard" = Controlled
  /\ carries_key Sample.host "/dashboard" = false
  /\ handle_request Sample.host (start Sample.host Sample.scenario) "/dashboard"
     = ([CreateRequest (mkRequest "/dashboard" (Str "/dashboard") (Obj []) Undefined);
         RequestAuth (Obj [("key", Str "request-1")])],
        Normal (parsed Sample.host "/dashboard", Answered)).
Proof.
  split; [reflexivity|]. split; [reflexivity|].
  destruct (C6_controlled_without_key Sample.host Sample.scenario "/dashboard"
              eq_refl eq_refl) as [c [Hc Hrun]].
  injection Hc as <-.
  exact (proj1 (proj2 (Hrun _ eq_refl)) eq_refl).
Defined.

(** The control layers never write to the request. *)
Lemma dispatch_control_preserves (h : Host) (cs : list string) (req : Request) :
  exists out,
    result (dispatch h (map (control_layer h) cs) req) = Normal (req, out).
Proof.
  induction cs as [|c cs IH]; [exists PassedOn; reflexivity|].
  cbn [map dispatch]. destruct (layer_matches h (control_layer h c) req); [|exact IH].
  cbn [handle control_layer]. unfold control_handler, tequilaRedirectHTTP.
  cbn [tequila query set_url].
  destruct (truthy (and_ (tequila req) _)).
  - rewrite bind_ret. cbn [fst snd]. rewrite set_url_restore. exact IH.
  - destruct (truthy (and_ (query req) _)).
    + rewrite !bind_ret. cbn [fst snd]. rewrite set_url_restore. exact IH.
    + destruct (createrequest h _) as [err results].
      destruct (truthy err); cbn; rewrite set_url_restore; eexists; reflexivity.
Qed.

(** C2. The request pipeline never calls [fetchattributes].  A controlled
    request that carries a ticket in [key] goes through [next()] with no
    call at all; one that does not leads to [createrequest], followed by
    the redirect when it succeeds, and to nothing else.  A login call that
    presents a ticket calls [fetchattributes] exactly once, with that
    ticket; one that presents none is declined without any call. *)
Theorem C2_only_login_redeems (h : Host) (opts : Opts) :
  (forall u, redemptions (trace (handle_request h (start h opts) u)) = [])
  /\ (forall u,
        classification h opts u = Controlled -> carries_key h u = true ->
        handle_request h (start h opts) u = ([], Normal (parsed h u, PassedOn)))
  /\ (forall u,
        classification h opts u = Controlled -> carries_key h u = false ->
        exists seen,
          trace (handle_request h (start h opts) u) = [CreateRequest seen]
          \/ exists results,
               trace (handle_request h (start h opts) u)
               = [CreateRequest seen; RequestAuth results])
  /\ (forall options,
        presents_ticket options = true ->
        redemptions (trace (login (start h opts) options)) = [tequilaKey options])
  /\ (forall options,
        presents_ticket options = false ->
        login (start h opts) options = ret Declined).
Proof.
  split; [|split; [|split; [|split]]].
  - intros u. apply http_no_redemption.
  - intros u Hc Hk. apply classification_controlled in Hc as [Hb _].
    rewrite handle_request_parsed, Hb.
    apply dispatch_control_pass. right. exact Hk.
  - intros u Hc Hk.
    destruct (controlled_without_key_run h opts u Hc Hk) as [seen Hrun].
    exists seen. destruct (truthy (fst (createrequest h seen))).
    + left. rewrite Hrun. reflexivity.
    + right. eexists. rewrite Hrun. reflexivity.
  - intros options Hk. apply login_redeems_once. exact Hk.
  - intros options Hk. apply login_declined. exact Hk.
Qed.

(** The scenario of the specification: [/dashboard?key=abc123] goes
    through untouched, [/dashboard] leads to a redirect, and the login
    call with the ticket is the one redemption. *)
Lemma C2_only_login_redeems_witness :
  (classification Sample.host Sample.scenario "/dashboard?key=abc123" = Controlled
   /\ carries_key Sample.host "/dashboard?key=abc123" = true
   /\ handle_request Sample.host (start Sample.host Sample.scenario)
        "/dashboard?key=abc123"
      = ([], Normal (parsed Sample.host "/dashboard?key=abc123", PassedOn)))
  /\ (carries_key Sample.host "/dashboard" = false
      /\ exists seen,
           trace (handle_request Sample.host (start Sample.host Sample.scenario)
                    "/dashboard") = [CreateRequest seen]
           \/ exists results,
                trace (handle_request Sample.host (start Sample.host Sample.scenario)
                         "/dashboard") = [CreateRequest seen; RequestAuth results])
  /\ (presents_ticket Sample.ticket = true
      /\ redemptions (trace (login (start Sample.host Sample.scenario) Sample.ticket))
         = [Str "abc123"])
  /\ (presents_ticket (mkLoginOptions Undefined) = false
      /\ login (start Sample.host Sample.scenario) (mkLoginOptions Undefined)
         = ret Declined).
Proof.
  destruct (C2_only_login_redeems Sample.host Sample.scenario)
    as [_ [Hkey [Hnokey [Hlogin Hdecline]]]].
  split; [|split; [|split]].
  - split; [reflexivity|]. split; [reflexivity|].
    exact (Hkey "/dashboard?key=abc123" eq_refl eq_refl).
  - split; [reflexivity|]. exact (Hnokey "/dashboard" eq_refl eq_refl).
  - split; [reflexivity|]. exact (Hlogin Sample.ticket eq_refl).
  - split; [reflexivity|]. exact (Hdecline (mkLoginOptions Undefined) eq_refl).
Defined.

(** C9, as the code has it.  The one thing the pipeline writes on the
    request is the mark of a bypass layer: a Whitelisted request leaves
    with [tequila = {whitelisted: true}], a Controlled or an Unclassified
    one leaves with [tequila] as it came, undefined. *)
Theorem C9_only_whitelisting_is_attached (h : Host) (opts : Opts) (u : string) :
  exists req out,
    result (handle_request h (start h opts) u) = Normal (req, out)
    /\ tequila req = match classification h opts u with
                     | Whitelisted => whitelisted_mark
                     | Controlled | Unclassified => Undefined
                     end.
Proof.
  rewrite handle_request_parsed. unfold classification, spec_classify.
  destruct (existsb _ (bypass _)).
  - destruct (dispatch_control_preserves h (control (extend_defaults h opts))
                (set_tequila whitelisted_mark (parsed h u))) as [out Hout].
    eexists; exists out. split; [exact Hout | reflexivity].
  - destruct (dispatch_control_preserves h (control (extend_defaults h opts))
                (parsed h u)) as [out Hout].
    eexists; exists out. split; [exact Hout|].
    destruct (existsb _ (control _)); reflexivity.
Qed.

(** C9 fails as stated: with bypass [/assets/] and control [/dashboard],
    the Controlled request [/dashboard?key=abc123] and the Unclassified
    request [/other] both reach the next handler with [tequila] undefined,
    so that nothing downstream can read the outcome off the request. *)
Lemma C9_counterexample :
  ~ exists read : value -> Outcome,
      forall u req,
        result (handle_request Sample.host (start Sample.host Sample.narrow) u)
        = Normal (req, PassedOn) ->
        read (tequila req) = classification Sample.host Sample.narrow u.
Proof.
  intros [read Hread].
  pose proof (Hread "/dashboard?key=abc123" _ eq_refl) as Hc.
  pose proof (Hread "/other" _ eq_refl) as Hu.
  cbn in Hc, Hu. congruence.
Qed.

(** ** Properties of the login handler *)

(** *** What [getIdFromResults] computes, shape by shape *)

Section Shapes.

Variable h : Host.
Variable options : Options.
Variable R : value.
Hypothesis Hoptions : scope_options h = Some options.

Lemma getIdFromResults_unfold :
  getIdFromResults h R =
  match getUserId options R with
  | Throw e => throw e
  | Normal loggedInUser =>
      if negb (truthy loggedInUser) then ret Undefined
      else if has_forEach loggedInUser then
        call_forEach loggedInUser forEach_callback ;;; ret Undefined
      else if truthy (get loggedInUser "_id") then ret (get loggedInUser "_id")
      else ret loggedInUser
  end.
Proof.
  unfold getIdFromResults. rewrite Hoptions. cbn [lookup]. rewrite bind_ret.
  destruct (getUserId options R) as [v|e]; [|reflexivity].
  exact (bind_ret v _).
Qed.


Lemma getIdFromResults_nothing (v : value) :
  getUserId options R = Normal v -> truthy v = false ->
  getIdFromResults h R = ret Undefined.
Proof. intros Hr Hv. rewrite getIdFromResults_unfold, Hr, Hv. reflexivity. Qed.

Lemma getIdFromResults_record (v : value) :
  getUserId options R = Normal v -> truthy v = true ->
  has_forEach v = false -> truthy (get v "_id") = true ->
  getIdFromResults h R = ret (get v "_id").
Proof.
  intros Hr Hv Hf Hid. rewrite getIdFromResults_unfold, Hr, Hv, Hf, Hid.
  reflexivity.
Qed.

(** A cursor without errors: every element is visited and the function
    returns [undefined]; the value the callback returns is lost. *)
Lemma getIdFromResults_cursor (feed : list (value * value))
                              (ps : list (string * value)) :
  getUserId options R = Normal (Iter feed ps) ->
  forallb (fun ev => negb (truthy (fst ev))) feed = true ->
  getIdFromResults h R =
  (map (fun ev => Visited (fst ev) (snd ev)) feed, Normal Undefined).
Proof.
  intros Hr Hfeed. rewrite getIdFromResults_unfold, Hr.
  cbn [truthy negb has_forEach call_forEach].
  rewrite (forEach_without_error feed Hfeed). cbn. rewrite app_nil_r.
  reflexivity.
Qed.


End Shapes.

(** Without a binding for [options] outside the module the function
    fails before it calls any resolver. *)
Lemma getIdFromResults_options_unbound (h : Host) (R : value) :
  scope_options h = None ->
  getIdFromResults h R = throw (ReferenceError "options").
Proof. unfold getIdFromResults. intros ->. reflexivity. Qed.

(** The handler does not consult the configuration [start] built, and so
    not the resolver in it. *)
Lemma login_ignores_configuration (h : Host) (c1 c2 : Options)
                                  (options : LoginOptions) :
  loginHandler h c1 options = loginHandler h c2 options.
Proof. reflexivity. Qed.

(** The default resolver looks the [name] attribute up among the users. *)
Lemma default_getUserId_found (h : Host) (opts : Opts) (R : value) :
  opts_getUserId opts = None ->
  R <> Undefined -> R <> Null ->
  getUserId (extend_defaults h opts) R
  = Normal (findOne_username h (get R "name")).
Proof.
  intros Hnone Hu Hn. unfold extend_defaults. cbn [getUserId]. rewrite Hnone.
  cbn [override]. unfold default_getUserId.
  destruct R; try reflexivity; contradiction.
Qed.

(** C7. When [fetchattributes] fails with [e], the handler answers
    [{error: e}] after that one call: the exception does not leave the
    handler.  No login call, this one or a later one, completes with an
    exception. *)
Theorem C7_fetch_failure_is_returned (h : Host) (opts : Opts)
                                     (options : LoginOptions) (e : value) :
  presents_ticket options = true ->
  fst (fetchattributes h (tequilaKey options)) = e ->
  truthy e = true ->
  login (start h opts) options
  = ([FetchAttributes (tequilaKey options)], Normal (LoginError e))
  /\ forall later, exists r, result (login (start h opts) later) = Normal r.
Proof.
  intros Hk <- He. split.
  - apply login_fetch_failed; assumption.
  - intros later. apply login_completes.
Qed.

Lemma C7_fetch_failure_is_returned_witness :
  presents_ticket Sample.ticket = true
  /\ truthy (Str "ECONNREFUSED") = true
  /\ login (start Sample.down Sample.defaults) Sample.ticket
     = ([FetchAttributes (Str "abc123")], Normal (LoginError (Str "ECONNREFUSED"))).
Proof.
  split; [reflexivity|]. split; [reflexivity|].
  exact (proj1 (C7_fetch_failure_is_returned Sample.down Sample.defaults
                  Sample.ticket (Str "ECONNREFUSED") eq_refl eq_refl eq_refl)).
Defined.



(** What [fetchattributes] returns on success is bound inside the first
    [try] block only: the answer of the handler does not depend on it. *)
Lemma login_ignores_fetched_attributes (h : Host) (configured : Options)
                                       (options : LoginOptions) (R1 R2 : value) :
  result (loginHandler (with_fetchattributes (fun _ => (Null, R1)) h)
                       configured options)
  = result (loginHandler (with_fetchattributes (fun _ => (Null, R2)) h)
                         configured options).
Proof. reflexivity. Qed.

(** C1, on a login call it covers.  The ticket is present, the fetch
    succeeds with the attributes of alice, the configured resolver returns
    the record of alice, whose [_id] is [u1]; nothing outside the module
    binds [results].  The handler answers with a ReferenceError where the
    specification has [{userId: u1}]. *)
Theorem C1_record_login :
  presents_ticket Sample.ticket = true
  /\ fetchattributes Sample.host (tequilaKey Sample.ticket)
     = (Null, Sample.attributes)
  /\ getUserId (extend_defaults Sample.host
                  (Sample.with_resolver Sample.record_resolver))
               Sample.attributes
     = Normal Sample.alice
  /\ get Sample.alice "_id" = Str "u1"
  /\ login (start Sample.host (Sample.with_resolver Sample.record_resolver))
           Sample.ticket
     = ([FetchAttributes (Str "abc123")],
        Normal (LoginError (ReferenceError "results"))).
Proof. repeat split. Qed.




(** C4, on a login call it covers: the resolver returns a cursor that
    yields [u1], then [u2], without error.  On a host that binds
    neither [results] nor [options] the handler answers with a
    ReferenceError.  On a host that binds both, the callback is called on
    both elements and the handler answers that the user is unknown, where
    the specification has [{userId: u1}] after a single element. *)
Theorem C4_cursor_login :
  login (start Sample.host (Sample.with_resolver Sample.cursor_resolver))
        Sample.ticket
  = ([FetchAttributes (Str "abc123")],
     Normal (LoginError (ReferenceError "results")))
  /\ login (start (Sample.bound Sample.attributes Sample.cursor_resolver)
                  (Sample.with_resolver Sample.cursor_resolver))
           Sample.ticket
     = ([FetchAttributes (Str "abc123");
         Visited Null (Str "u1"); Visited Null (Str "u2")],
        Normal (LoginError (Obj (MeteorError "Tequila:user-unknown")))).
Proof. split; reflexivity. Qed.

(** C10, on a login call it covers: [opts] has no [getUserId], the
    attribute [name] is the username of a stored user, and the default
    resolver returns her document, whose [_id] is [u1].  The handler
    answers with a ReferenceError where the specification has
    [{userId: u1}]. *)
Theorem C10_default_resolver_login :
  opts_getUserId Sample.defaults = None
  /\ getUserId (extend_defaults Sample.host Sample.defaults) Sample.attributes
     = Normal Sample.alice
  /\ get Sample.alice "_id" = Str "u1"
  /\ login (start Sample.host Sample.defaults) Sample.ticket
     = ([FetchAttributes (Str "abc123")],
        Normal (LoginError (ReferenceError "results"))).
Proof. repeat split. Qed.

(** ** Further properties of the request pipeline *)



(** X1. A request that matches no bypass and no control pattern is handed
    to the next handler as connect-query left it, with no call to
    Tequila. *)
Theorem X1_unclassified_passes_untouched (h : Host) (opts : Opts) (u : string) :
  classification h opts u = Unclassified ->
  handle_request h (start h opts) u = ([], Normal (parsed h u, PassedOn)).
Proof.
  unfold classification, spec_classify. intros Hc. rewrite handle_request_parsed.
  destruct (existsb _ (bypass _)); [discriminate|].
  destruct (existsb _ (control _)) eqn:Hctl; [discriminate|].
  apply dispatch_control_nomatch. exact Hctl.
Qed.

Lemma X1_unclassified_passes_untouched_witness :
  classification Sample.host Sample.narrow "/other" = Unclassified
  /\ handle_request Sample.host (start Sample.host Sample.narrow) "/other"
     = ([], Normal (mkRequest "/other" (Str "/other") (Obj []) Undefined,
                    PassedOn)).
Proof.
  split; [reflexivity|].
  exact (X1_unclassified_passes_untouched Sample.host Sample.narrow "/other"
           eq_refl).
Defined.




(** X4. When the caller gives no control list, the single control layer
    is mounted at [/]: a request that connect shows to that layer, that
    matches no bypass pattern and that carries no ticket makes the
    pipeline call [createrequest] first. *)
Theorem X4_default_control (h : Host) (opts : Opts) (u : string) :
  opts_control opts = None ->
  route_match h "/" u = true ->
  existsb (fun p => route_match h p u) (bypass (extend_defaults h opts)) = false ->
  carries_key h u = false ->
  exists rest,
    trace (handle_request h (start h opts) u)
    = CreateRequest (set_url (strip_route h "/" u) (parsed h u)) :: rest.
Proof.
  intros Hnone Hroot Hb Hk. rewrite handle_request_parsed, Hb.
  assert (Hctl : control (extend_defaults h opts) = ["/"])
    by (unfold extend_defaults; cbn [control]; rewrite Hnone; reflexivity).
  rewrite Hctl.
  rewrite (dispatch_control_redirect h ["/"] (parsed h u) "/" eq_refl Hk)
    by (cbn [find url parsed]; rewrite Hroot; reflexivity).
  cbn zeta. change (url (parsed h u)) with u.
  destruct (truthy (fst (createrequest h _))); eexists; reflexivity.
Qed.

Lemma X4_default_control_witness :
  route_match Sample.host "/" "/private/page" = true
  /\ carries_key Sample.host "/private/page" = false
  /\ exists rest,
       trace (handle_request Sample.host (start Sample.host Sample.defaults)
                "/private/page")
       = CreateRequest (set_url (strip_route Sample.host "/" "/private/page")
                                (parsed Sample.host "/private/page")) :: rest.
Proof.
  split; [reflexivity|]. split; [reflexivity|].
  exact (X4_default_control Sample.host Sample.defaults "/private/page"
           eq_refl eq_refl eq_refl eq_refl).
Defined.

(** ** Further properties of the login handler *)

(** A walk visits the elements of the cursor in order, up to some point. *)
Lemma forEach_trace (feed : list (value * value)) :
  exists n,
    trace (forEach feed forEach_callback)
    = map (fun ev => Visited (fst ev) (snd ev)) (firstn n feed).
Proof.
  induction feed as [|[e v] feed [n IH]]; [exists 0; reflexivity|].
  cbn [forEach]. rewrite forEach_callback_eq, trace_bind.
  destruct (truthy e).
  - exists 1. reflexivity.
  - exists (S n). unfold trace, result in *. cbn [fst snd app firstn map].
    rewrite IH. reflexivity.
Qed.

Lemma forEach_error_at (pre post : list (value * value)) (e v : value) :
  forallb (fun ev => negb (truthy (fst ev))) pre = true ->
  truthy e = true ->
  forEach (pre ++ (e, v) :: post) forEach_callback
  = (map (fun ev => Visited (fst ev) (snd ev)) (pre ++ [(e, v)]), Throw e).
Proof.
  intros Hpre He. induction pre as [|[e' v'] pre IH].
  - cbn [app]. rewrite (forEach_error_first e v post He). reflexivity.
  - cbn [forallb fst] in Hpre. apply andb_prop in Hpre as [He' Hpre].
    apply negb_true_iff in He'.
    cbn [app forEach]. rewrite forEach_callback_eq, He', (IH Hpre).
    reflexivity.
Qed.

Lemma getIdFromResults_trace (h : Host) (R : value) :
  exists visits,
    trace (getIdFromResults h R)
    = map (fun ev => Visited (fst ev) (snd ev)) visits.
Proof.
  destruct (scope_options h) as [o|] eqn:Ho.
  - rewrite (getIdFromResults_unfold h o R Ho).
    destruct (getUserId o R) as [v|e]; [|exists []; reflexivity].
    destruct (truthy v); cbn [negb]; [|exists []; reflexivity].
    destruct (has_forEach v).
    + rewrite trace_bind. destruct v; try (exists []; reflexivity).
      cbn [call_forEach].
      destruct (forEach_trace feed) as [n Hn].
      exists (firstn n feed).
      destruct (result (forEach feed forEach_callback));
        cbn [trace ret fst]; rewrite ?app_nil_r; exact Hn.
    + destruct (truthy (get v "_id")); exists []; reflexivity.
  - rewrite (getIdFromResults_options_unbound h R Ho). exists []. reflexivity.
Qed.

(** X5. A login call that presents a ticket is never declined: it is
    answered with [{error}] or with [{userId}]. *)
Theorem X5_ticket_is_answered (h : Host) (opts : Opts) (options : LoginOptions) :
  presents_ticket options = true ->
  exists v,
    result (login (start h opts) options) = Normal (LoginError v)
    \/ result (login (start h opts) options) = Normal (LoggedIn v).
Proof.
  intros Hk. cbn [login start].
  destruct (truthy (fst (fetchattributes h (tequilaKey options)))) eqn:Herr.
  - rewrite login_fetch_failed by assumption. eexists. left. reflexivity.
  - destruct (scope_results h) as [R|] eqn:Hscope.
    + rewrite (login_results_bound h _ options R) by assumption.
      cbn [result snd].
      destruct (result (getIdFromResults h R)) as [v|e].
      * destruct (truthy v); eexists; [right | left]; reflexivity.
      * eexists. left. reflexivity.
    + rewrite login_results_unbound by assumption. eexists. left. reflexivity.
Qed.

Lemma X5_ticket_is_answered_witness :
  presents_ticket Sample.ticket = true
  /\ exists v,
       result (login (start Sample.host Sample.defaults) Sample.ticket)
       = Normal (LoginError v)
       \/ result (login (start Sample.host Sample.defaults) Sample.ticket)
          = Normal (LoggedIn v).
Proof.
  split; [reflexivity|].
  exact (X5_ticket_is_answered Sample.host Sample.defaults Sample.ticket eq_refl).
Defined.

(** X6. A login succeeds only with a truthy user id, after a successful
    fetch, and only on a host that binds both [results] and [options]
    outside the module; the user id is then what [getIdFromResults] made
    of that binding of [results]. *)
Theorem X6_login_success (h : Host) (opts : Opts) (options : LoginOptions)
                         (userId : value) :
  result (login (start h opts) options) = Normal (LoggedIn userId) ->
  truthy userId = true
  /\ presents_ticket options = true
  /\ truthy (fst (fetchattributes h (tequilaKey options))) = false
  /\ exists R o,
       scope_results h = Some R /\ scope_options h = Some o
       /\ result (getIdFromResults h R) = Normal userId.
Proof.
  cbn [login start]. intros Hin.
  destruct (presents_ticket options) eqn:Hk;
    [|rewrite login_declined in Hin by assumption; discriminate].
  destruct (truthy (fst (fetchattributes h (tequilaKey options)))) eqn:Herr;
    [rewrite login_fetch_failed in Hin by assumption; discriminate|].
  destruct (scope_results h) as [R|] eqn:Hscope;
    [|rewrite login_results_unbound in Hin by assumption; discriminate].
  rewrite (login_results_bound h _ options R) in Hin by assumption.
  cbn [result snd] in Hin.
  destruct (scope_options h) as [o|] eqn:Ho.
  - destruct (result (getIdFromResults h R)) as [v|e] eqn:Hid; [|discriminate].
    destruct (truthy v) eqn:Hv; [|discriminate].
    injection Hin as <-.
    repeat split; try assumption; try reflexivity.
    exists R, o. repeat split; try reflexivity; assumption.
  - rewrite (getIdFromResults_options_unbound h R Ho) in Hin. discriminate.
Qed.

Lemma X6_login_success_witness :
  result (login (start (Sample.bound Sample.attributes Sample.record_resolver)
                       Sample.defaults) Sample.ticket)
  = Normal (LoggedIn (Str "u1"))
  /\ truthy (Str "u1") = true.
Proof.
  split; [reflexivity|].
  exact (proj1 (X6_login_success
                  (Sample.bound Sample.attributes Sample.record_resolver)
                  Sample.defaults Sample.ticket (Str "u1") eq_refl)).
Defined.

(** X7. A login call that presents a ticket starts with its one call to
    [fetchattributes]; all it does after that is visit elements of a
    cursor: the handler never calls [createrequest] and never redirects. *)
Theorem X7_login_trace (h : Host) (opts : Opts) (options : LoginOptions) :
  presents_ticket options = true ->
  exists visits,
    trace (login (start h opts) options)
    = FetchAttributes (tequilaKey options)
      :: map (fun ev => Visited (fst ev) (snd ev)) visits.
Proof.
  intros Hk. cbn [login start].
  destruct (truthy (fst (fetchattributes h (tequilaKey options)))) eqn:Herr.
  - rewrite login_fetch_failed by assumption. exists []. reflexivity.
  - destruct (scope_results h) as [R|] eqn:Hscope.
    + rewrite (login_results_bound h _ options R) by assumption.
      destruct (getIdFromResults_trace h R) as [visits Hv].
      exists visits. unfold trace in *. cbn [fst]. rewrite Hv. reflexivity.
    + rewrite login_results_unbound by assumption. exists []. reflexivity.
Qed.

Lemma X7_login_trace_witness :
  presents_ticket Sample.ticket = true
  /\ exists visits,
       trace (login (start (Sample.bound Sample.attributes Sample.cursor_resolver)
                           Sample.defaults) Sample.ticket)
       = FetchAttributes (Str "abc123")
         :: map (fun ev => Visited (fst ev) (snd ev)) visits.
Proof.
  split; [reflexivity|].
  exact (X7_login_trace (Sample.bound Sample.attributes Sample.cursor_resolver)
           Sample.defaults Sample.ticket eq_refl).
Defined.

(** X8. On a host where nothing outside the module binds [results], every
    login call that presents a ticket and whose fetch succeeds is answered
    with a ReferenceError for [results], after the one call to
    [fetchattributes]: no resolver runs. *)
Theorem X8_login_without_results (h : Host) (opts : Opts)
                                 (options : LoginOptions) :
  presents_ticket options = true ->
  truthy (fst (fetchattributes h (tequilaKey options))) = false ->
  scope_results h = None ->
  login (start h opts) options
  = ([FetchAttributes (tequilaKey options)],
     Normal (LoginError (ReferenceError "results"))).
Proof. intros Hk Hfetch Hscope. apply login_results_unbound; assumption. Qed.

Lemma X8_login_without_results_witness :
  presents_ticket Sample.ticket = true
  /\ scope_results Sample.host = None
  /\ login (start Sample.host (Sample.with_resolver Sample.cursor_resolver))
           Sample.ticket
     = ([FetchAttributes (Str "abc123")],
        Normal (LoginError (ReferenceError "results"))).
Proof.
  split; [reflexivity|]. split; [reflexivity|].
  exact (X8_login_without_results Sample.host
           (Sample.with_resolver Sample.cursor_resolver) Sample.ticket
           eq_refl eq_refl eq_refl).
Defined.

(** X9. On a host that binds [results] but not [options], such a call is
    answered with a ReferenceError for [options]: [getIdFromResults]
    fails on its first identifier, whatever resolver was configured. *)
Theorem X9_login_without_options (h : Host) (opts : Opts)
                                 (options : LoginOptions) (R : value) :
  presents_ticket options = true ->
  truthy (fst (fetchattributes h (tequilaKey options))) = false ->
  scope_results h = Some R ->
  scope_options h = None ->
  login (start h opts) options
  = ([FetchAttributes (tequilaKey options)],
     Normal (LoginError (ReferenceError "options"))).
Proof.
  intros Hk Hfetch HR Ho. cbn [login start].
  rewrite (login_results_bound h _ options R Hk Hfetch HR).
  rewrite (getIdFromResults_options_unbound h R Ho). reflexivity.
Qed.

Lemma X9_login_without_options_witness :
  presents_ticket Sample.ticket = true
  /\ scope_options (Fixture.results_only Sample.attributes) = None
  /\ login (start (Fixture.results_only Sample.attributes)
                  (Sample.with_resolver Sample.record_resolver))
           Sample.ticket
     = ([FetchAttributes (Str "abc123")],
        Normal (LoginError (ReferenceError "options"))).
Proof.
  split; [reflexivity|]. split; [reflexivity|].
  exact (X9_login_without_options (Fixture.results_only Sample.attributes)
           (Sample.with_resolver Sample.record_resolver) Sample.ticket
           Sample.attributes eq_refl eq_refl eq_refl eq_refl).
Defined.

(** X10. The answer to a login call whose fetch succeeds depends neither
    on the attributes that were fetched nor on the options given to
    [start]: two Tequila servers that both accept the ticket, and two
    configurations, give the same answer. *)
Theorem X10_login_answer_independent (h : Host)
    (f1 f2 : value -> value * value) (opts1 opts2 : Opts)
    (options : LoginOptions) :
  truthy (fst (f1 (tequilaKey options))) = false ->
  truthy (fst (f2 (tequilaKey options))) = false ->
  result (login (start (with_fetchattributes f1 h) opts1) options)
  = result (login (start (with_fetchattributes f2 h) opts2) options).
Proof.
  intros H1 H2. cbn [login start]. unfold loginHandler.
  destruct (truthy (tequilaKey options)); [|reflexivity]. cbn [negb].
  cbn [fetchattributes with_fetchattributes].
  destruct (f1 (tequilaKey options)) as [e1 r1].
  destruct (f2 (tequilaKey options)) as [e2 r2].
  cbn [fst] in H1, H2. cbn. rewrite H1, H2. cbn.
  destruct (scope_results h) as [R|]; [|reflexivity]. cbn.
  change (getIdFromResults (with_fetchattributes f1 h) R)
    with (getIdFromResults (with_fetchattributes f2 h) R).
  destruct (getIdFromResults (with_fetchattributes f2 h) R) as [evs [v|e]];
    cbn; [destruct (truthy v)|]; reflexivity.
Qed.

Lemma X10_login_answer_independent_witness :
  result (login (start (with_fetchattributes
                          (fun _ => (Null, Obj [("name", Str "alice")]))
                          (Sample.bound Sample.attributes Sample.record_resolver))
                       (Sample.with_resolver Sample.record_resolver))
                Sample.ticket)
  = result (login (start (with_fetchattributes
                            (fun _ => (Null, Obj [("name", Str "mallory")]))
                            (Sample.bound Sample.attributes Sample.record_resolver))
                         (Sample.with_resolver Sample.empty_resolver))
                  Sample.ticket).
Proof.
  exact (X10_login_answer_independent
           (Sample.bound Sample.attributes Sample.record_resolver)
           (fun _ => (Null, Obj [("name", Str "alice")]))
           (fun _ => (Null, Obj [("name", Str "mallory")]))
           (Sample.with_resolver Sample.record_resolver)
           (Sample.with_resolver Sample.empty_resolver)
           Sample.ticket eq_refl eq_refl).
Defined.

(** ** Properties of [getIdFromResults] *)

(** X11. With [options] bound outside the module to an object whose
    resolver returns a truthy value that has no [forEach], the function
    yields the [_id] of that value when it is truthy, and the value itself
    otherwise: a bare identifier, and also a record whose [_id] is
    missing or falsy. *)
Theorem X11_record_or_bare_id (h : Host) (o : Options) (R v : value) :
  scope_options h = Some o ->
  getUserId o R = Normal v ->
  truthy v = true ->
  has_forEach v = false ->
  getIdFromResults h R
  = ret (if truthy (get v "_id") then get v "_id" else v).
Proof.
  intros Ho Hr Hv Hf. rewrite (getIdFromResults_unfold h o R Ho), Hr, Hv, Hf.
  cbn [negb]. destruct (truthy (get v "_id")); reflexivity.
Qed.

Lemma X11_record_or_bare_id_witness :
  (getIdFromResults (Sample.bound Sample.attributes Fixture.bare_id_resolver)
                    Sample.attributes = ret (Str "u7"))
  /\ (getIdFromResults (Sample.bound Sample.attributes Sample.record_resolver)
                       Sample.attributes = ret (Str "u1"))
  /\ (getIdFromResults
        (Sample.bound Sample.attributes
           (fun _ => Normal (Obj [("_id", Str ""); ("username", Str "bob")])))
        Sample.attributes
      = ret (Obj [("_id", Str ""); ("username", Str "bob")])).
Proof.
  split; [|split].
  - exact (X11_record_or_bare_id
             (Sample.bound Sample.attributes Fixture.bare_id_resolver)
             _ Sample.attributes (Str "u7") eq_refl eq_refl eq_refl eq_refl).
  - exact (X11_record_or_bare_id
             (Sample.bound Sample.attributes Sample.record_resolver)
             _ Sample.attributes Sample.alice eq_refl eq_refl eq_refl eq_refl).
  - exact (X11_record_or_bare_id
             (Sample.bound Sample.attributes
                (fun _ => Normal (Obj [("_id", Str ""); ("username", Str "bob")])))
             _ Sample.attributes
             (Obj [("_id", Str ""); ("username", Str "bob")])
             eq_refl eq_refl eq_refl eq_refl).
Defined.

(** X12. When the resolver returns a cursor none of whose elements
    carries an error, the callback is called on every element, in order,
    and the function yields [undefined]: what the callback returns is
    lost, however many elements there are. *)
Theorem X12_cursor_without_error (h : Host) (o : Options) (R : value)
    (feed : list (value * value)) (ps : list (string * value)) :
  scope_options h = Some o ->
  getUserId o R = Normal (Iter feed ps) ->
  forallb (fun ev => negb (truthy (fst ev))) feed = true ->
  getIdFromResults h R
  = (map (fun ev => Visited (fst ev) (snd ev)) feed, Normal Undefined).
Proof. intros Ho Hr Hfeed. exact (getIdFromResults_cursor h o R Ho feed ps Hr Hfeed). Qed.

Lemma X12_cursor_without_error_witness :
  getIdFromResults (Sample.bound Sample.attributes Sample.cursor_resolver)
                   Sample.attributes
  = ([Visited Null (Str "u1"); Visited Null (Str "u2")], Normal Undefined).
Proof.
  exact (X12_cursor_without_error
           (Sample.bound Sample.attributes Sample.cursor_resolver)
           _ Sample.attributes [(Null, Str "u1"); (Null, Str "u2")] []
           eq_refl eq_refl eq_refl).
Defined.

(** X13. When an element of the cursor carries an error, the elements
    before it are visited and their values dropped, the error of the
    first such element is thrown, and no later element is visited. *)
Theorem X13_cursor_error (h : Host) (o : Options) (R : value)
    (pre post : list (value * value)) (e v : value)
    (ps : list (string * value)) :
  scope_options h = Some o ->
  getUserId o R = Normal (Iter (pre ++ (e, v) :: post) ps) ->
  forallb (fun ev => negb (truthy (fst ev))) pre = true ->
  truthy e = true ->
  getIdFromResults h R
  = (map (fun ev => Visited (fst ev) (snd ev)) (pre ++ [(e, v)]), Throw e).
Proof.
  intros Ho Hr Hpre He. rewrite (getIdFromResults_unfold h o R Ho), Hr.
  cbn [truthy negb has_forEach call_forEach].
  rewrite (forEach_error_at pre post e v Hpre He). reflexivity.
Qed.

Lemma X13_cursor_error_witness :
  getIdFromResults (Sample.bound Sample.attributes Fixture.late_error_resolver)
                   Sample.attributes
  = ([Visited Null (Str "u1"); Visited (Str "lost") (Str "u2")],
     Throw (Str "lost")).
Proof.
  exact (X13_cursor_error
           (Sample.bound Sample.attributes Fixture.late_error_resolver)
           _ Sample.attributes [(Null, Str "u1")] [(Null, Str "u3")]
           (Str "lost") (Str "u2") [] eq_refl eq_refl eq_refl eq_refl).
Defined.

(** ** Properties of [TequilaUnknownUserError] *)

Lemma assoc_set_prop (k k' : string) (v : value) (ps : list (string * value)) :
  assoc k (set_prop k' v ps) = if String.eqb k k' then v else assoc k ps.
Proof.
  induction ps as [|[k1 v1] ps IH]; cbn.
  - destruct (String.eqb k k'); reflexivity.
  - destruct (String.eqb_spec k' k1) as [->|Hne]; cbn.
    + destruct (String.eqb k k1); reflexivity.
    + destruct (String.eqb_spec k k1) as [->|Hne1].
      * destruct (String.eqb_spec k1 k') as [->|_]; [contradiction | reflexivity].
      * exact IH.
Qed.

(** A property [_.extend] does not assign keeps its value. *)
Lemma assoc_extend_other (k : string) (src dst : list (string * value)) :
  ~ In k (map fst src) -> assoc k (extend dst src) = assoc k dst.
Proof.
  unfold extend. revert dst.
  induction src as [|[k1 v1] src IH]; intros dst Hnot; [reflexivity|].
  cbn [fold_left fst snd]. rewrite IH by (intros Hin; apply Hnot; right; exact Hin).
  rewrite assoc_set_prop.
  destruct (String.eqb_spec k k1) as [->|_]; [|reflexivity].
  exfalso. apply Hnot. left. reflexivity.
Qed.

(** A property [_.extend] assigns has the value of the source. *)
Lemma assoc_extend_assigned (k : string) (src dst : list (string * value)) :
  NoDup (map fst src) -> In k (map fst src) ->
  assoc k (extend dst src) = assoc k src.
Proof.
  unfold extend. revert dst.
  induction src as [|[k1 v1] src IH]; intros dst Hnd Hin; [contradiction|].
  cbn [map fst] in Hnd, Hin. inversion Hnd as [|? ? Hfresh Hnd']; subst.
  cbn [fold_left fst snd assoc].
  destruct (String.eqb_spec k k1) as [->|Hne].
  - fold (extend (set_prop k1 v1 dst) src).
    rewrite (assoc_extend_other k1 src _ Hfresh), assoc_set_prop,
      String.eqb_refl. reflexivity.
  - destruct Hin as [Heq|Hin]; [congruence|]. exact (IH _ Hnd' Hin).
Qed.

Lemma assoc_defined_in (k : string) (ps : list (string * value)) :
  assoc k ps <> Undefined -> In k (map fst ps).
Proof.
  induction ps as [|[k1 v1] ps IH]; cbn; [congruence|].
  destruct (String.eqb_spec k k1) as [->|_]; [left; reflexivity|].
  intros Hdef. right. exact (IH Hdef).
Qed.

(** X14. The error [TequilaUnknownUserError] builds from an attribute
    set carries that set: every attribute can be read from the error with
    the value it has in the set.  An attribute named [error] or [message]
    therefore replaces the field of that name of the [Meteor.Error]. *)
Theorem X14_unknown_user_error_carries_attributes
    (ps : list (string * value)) :
  NoDup (map fst ps) ->
  payload_includes (TequilaUnknownUserError (Obj ps)) (Obj ps).
Proof.
  intros Hnd k Hdef. cbn [TequilaUnknownUserError get] in *.
  apply assoc_extend_assigned; [exact Hnd|].
  apply assoc_defined_in. exact Hdef.
Qed.

Lemma X14_unknown_user_error_carries_attributes_witness :
  NoDup (map fst [("name", Str "alice"); ("error", Str "mine")])
  /\ get (TequilaUnknownUserError
            (Obj [("name", Str "alice"); ("error", Str "mine")])) "name"
     = Str "alice"
  /\ error_kind (TequilaUnknownUserError
                   (Obj [("name", Str "alice"); ("error", Str "mine")]))
     = Str "mine".
Proof.
  assert (Hnd : NoDup (map fst [("name", Str "alice"); ("error", Str "mine")])).
  { cbn. constructor.
    - intros [Heq|[]]. discriminate.
    - constructor; [intros []|constructor]. }
  split; [exact Hnd|]. split.
  - apply (X14_unknown_user_error_carries_attributes _ Hnd "name"). discriminate.
  - apply (X14_unknown_user_error_carries_attributes _ Hnd "error"). discriminate.
Defined.

(** X15. The error kind is [TEQUILA_USER_UNKNOWN] whenever the attribute
    set has no attribute named [error], and the fields of the
    [Meteor.Error] that no attribute is named after are kept. *)
Theorem X15_unknown_user_error_kind (ps : list (string * value)) (k : string) :
  ~ In k (map fst ps) ->
  get (TequilaUnknownUserError (Obj ps)) k
  = get (Obj (MeteorError "TEQUILA_USER_UNKNOWN")) k.
Proof.
  intros Hnot. cbn [TequilaUnknownUserError get].
  apply assoc_extend_other. exact Hnot.
Qed.

Lemma X15_unknown_user_error_kind_witness :
  ~ In "error" (map fst [("name", Str "alice")])
  /\ error_kind (TequilaUnknownUserError Sample.attributes)
     = Str "TEQUILA_USER_UNKNOWN".
Proof.
  assert (Hnot : ~ In "error" (map fst [("name", Str "alice")]))
    by (intros [Heq|[]]; discriminate).
  split; [exact Hnot|].
  exact (X15_unknown_user_error_kind [("name", Str "alice")] "error" Hnot).
Defined.

(** ** Properties of [getIpOfInterface] *)


Lemma find_IPv4_first (pre post : list value) (a : value) :
  forallb other_family pre = true ->
  get a "family" = Str "IPv4" ->
  find_ (pre ++ a :: post) is_IPv4 = ret a.
Proof.
  intros Hpre Ha. induction pre as [|b pre IH].
  - cbn [app find_].
    destruct a; try discriminate; unfold is_IPv4; rewrite bind_ret, Ha;
      reflexivity.
  - cbn [forallb] in Hpre. apply andb_prop in Hpre as [Hb Hpre].
    cbn [app find_]. rewrite <- (IH Hpre).
    destruct b; try discriminate; unfold is_IPv4; rewrite bind_ret;
      unfold other_family in Hb;
      (destruct (get _ "family") as [| |?|?|fam|?|? ?]; try reflexivity;
       apply negb_true_iff in Hb; rewrite Hb; reflexivity).
Qed.



(** X17. For an interface whose addresses are objects, the function
    yields the [address] of the first one of family IPv4: addresses of
    another family before it are skipped, and whatever comes after it is
    not looked at. *)
Theorem X17_first_IPv4_address (nis : list (string * list value))
    (iface : string) (pre post : list value) (a : value) :
  interface_named iface nis = Some (pre ++ a :: post) ->
  forallb other_family pre = true ->
  get a "family" = Str "IPv4" ->
  getIpOfInterface (Some nis) iface = ret (get a "address").
Proof.
  intros Hif Hpre Ha. unfold getIpOfInterface. cbn [lookup].
  rewrite bind_ret, Hif, (find_IPv4_first pre post a Hpre Ha), bind_ret.
  destruct a; try discriminate; reflexivity.
Qed.

Lemma X17_first_IPv4_address_witness :
  getIpOfInterface (Some Fixture.interfaces) "eth0" = ret (Str "10.0.0.5").
Proof.
  exact (X17_first_IPv4_address Fixture.interfaces "eth0"
           [Obj [("address", Str "fe80::1"); ("family", Str "IPv6")]]
           [Obj [("address", Str "10.0.0.6"); ("family", Str "IPv4")]]
           (Obj [("address", Str "10.0.0.5"); ("family", Str "IPv4")])
           eq_refl eq_refl eq_refl).
Defined.

(** X18. The module does not import [os]: where nothing outside it binds
    that name, [getIpOfInterface] fails with a ReferenceError for every
    interface; and an address structure that is [null] or [undefined],
    met before any IPv4 address, makes it fail with a TypeError. *)
Theorem X18_getIpOfInterface_failures :
  (forall iface, getIpOfInterface None iface = throw (ReferenceError "os"))
  /\ (forall nis iface pre a post,
        interface_named iface nis = Some (pre ++ a :: post) ->
        forallb other_family pre = true ->
        a = Undefined \/ a = Null ->
        exists msg, getIpOfInterface (Some nis) iface = throw (TypeError msg)).
Proof.
  split; [reflexivity|].
  intros nis iface pre a post Hif Hpre Ha.
  unfold getIpOfInterface. cbn [lookup]. rewrite bind_ret, Hif.
  assert (Hfind : exists msg,
             find_ (pre ++ a :: post) is_IPv4 = throw (TypeError msg)).
  { clear Hif. induction pre as [|b pre IH].
    - destruct Ha as [-> | ->]; eexists; reflexivity.
    - cbn [forallb] in Hpre. apply andb_prop in Hpre as [Hb Hpre].
      destruct (IH Hpre) as [msg Hmsg]. exists msg.
      cbn [app find_]. rewrite <- Hmsg.
      destruct b; try discriminate; unfold is_IPv4; rewrite bind_ret;
        unfold other_family in Hb;
        (destruct (get _ "family") as [| |?|?|fam|?|? ?]; try reflexivity;
         apply negb_true_iff in Hb; rewrite Hb; reflexivity). }
  destruct Hfind as [msg Hmsg]. exists msg. rewrite Hmsg. reflexivity.
Qed.

Lemma X18_getIpOfInterface_failures_witness :
  getIpOfInterface None "eth0" = throw (ReferenceError "os")
  /\ exists msg,
       getIpOfInterface (Some [("eth0", [Null])]) "eth0" = throw (TypeError msg).
Proof.
  split.
  - exact (proj1 X18_getIpOfInterface_failures "eth0").
  - exact (proj2 X18_getIpOfInterface_failures [("eth0", [Null])] "eth0"
             [] Null [] eq_refl eq_refl (or_intror eq_refl)).
Defined.

(** ** Properties of [setupFakeLocalServer] *)

(** X19. Unless [configForFake] is an object with a [port] property, the
    function throws and leaves the protocol object as it was.  That is
    so for [true] in particular, on which the test ["port" in
    configForFake] is a TypeError. *)
Theorem X19_fake_server_config_rejected (env : FakeServerEnv)
    (configForFake : value) (protocol : Protocol) :
  has_property "port" configForFake <> Normal true ->
  exists e,
    setupFakeLocalServer env configForFake protocol = (protocol, Throw e).
Proof.
  intros Hport. unfold setupFakeLocalServer.
  destruct (member (fakes env) "TequilaServer") as [fts|e]; [|eexists; reflexivity].
  destruct (has_property "port" configForFake) as [[|]|e] eqn:Hin.
  - contradiction.
  - destruct configForFake as [| |b|z|s|ps|feed ps]; try discriminate;
      eexists; reflexivity.
  - eexists; reflexivity.
Qed.

Lemma X19_fake_server_config_rejected_witness :
  (exists e, setupFakeLocalServer Fixture.env_with_agent (Bool true)
               Fixture.protocol = (Fixture.protocol, Throw e))
  /\ (exists e, setupFakeLocalServer Fixture.env_with_agent
                  (Obj [("host", Str "localhost")]) Fixture.protocol
                = (Fixture.protocol, Throw e)).
Proof.
  split.
  - apply X19_fake_server_config_rejected. discriminate.
  - apply X19_fake_server_config_rejected. discriminate.
Defined.

(** X20. The branch for [configForFake === true], which would start a
    fake server of its own, never runs: what the function does is the
    same whatever that branch would do. *)
Theorem X20_own_server_branch_is_dead (fk : value) (ag : completion value)
    (own own' : value -> Protocol -> Protocol * completion unit)
    (configForFake : value) (protocol : Protocol) :
  setupFakeLocalServer (mkFakeServerEnv fk ag own) configForFake protocol
  = setupFakeLocalServer (mkFakeServerEnv fk ag own') configForFake protocol.
Proof.
  unfold setupFakeLocalServer. cbn [fakes new_Agent own_server].
  destruct (member fk "TequilaServer") as [fts|e]; [|reflexivity].
  destruct configForFake as [| |b|z|s|ps|feed ps]; reflexivity.
Qed.

(** X21. For an object with a [port] property, the function points the
    protocol object at that port of [localhost] before it builds the
    agent: the two assignments stay when building the agent fails, and
    the agent is replaced only when it succeeds. *)
Theorem X21_fake_server_port (env : FakeServerEnv) (configForFake : value)
    (protocol : Protocol) (FakeTequilaServer : value) :
  member (fakes env) "TequilaServer" = Normal FakeTequilaServer ->
  has_property "port" configForFake = Normal true ->
  setupFakeLocalServer env configForFake protocol
  = match new_Agent env with
    | Normal a =>
        (mkProtocol (Str "localhost") (get configForFake "port") a, Normal tt)
    | Throw e =>
        (mkProtocol (Str "localhost") (get configForFake "port") (agent protocol),
         Throw e)
    end.
Proof.
  intros Hfakes Hport. unfold setupFakeLocalServer. rewrite Hfakes, Hport.
  destruct (new_Agent env); reflexivity.
Qed.

Lemma X21_fake_server_port_witness :
  setupFakeLocalServer Fixture.env (Obj [("port", Num 3011)]) Fixture.protocol
  = (mkProtocol (Str "localhost") (Num 3011) Undefined,
     Throw (TypeError "fakes.getCACert is not a function"))
  /\ setupFakeLocalServer Fixture.env_with_agent (Obj [("port", Num 3011)])
       Fixture.protocol
     = (mkProtocol (Str "localhost") (Num 3011) (Obj [("ca", Str "cert")]),
        Normal tt).
Proof.
  split.
  - exact (X21_fake_server_port Fixture.env (Obj [("port", Num 3011)])
             Fixture.protocol Undefined eq_refl eq_refl).
  - exact (X21_fake_server_port Fixture.env_with_agent (Obj [("port", Num 3011)])
             Fixture.protocol (Obj []) eq_refl eq_refl).
Defined.
